(** * SmartFactory IoT stats service (src/main.py): a shallow embedding

    The service loads a CSV table of sensor readings once, answers
    [GET /stats] with count/avg/min/max over the readings that match the
    optional [location], [sensor], [start_date] and [end_date] parameters,
    and memoizes each response in a dict keyed by a normalized tuple of
    the raw parameters.

    Modelling choices:
    - Python [str] is [String.string]; [str.strip] removes the ASCII
      characters Python counts as whitespace, [str.lower] maps A-Z to a-z.
    - A UTC instant ([pd.Timestamp] with [utc=True]) is a [Z] number of
      seconds since 1970-01-01T00:00:00Z.
    - A float64 value is a primitive binary64 [float]; the sum, mean, min
      and max follow numpy's float64 reductions.
    - What pandas does to the cells of a column ([read_csv]'s typing,
      [pd.to_datetime] with its per-column format, [astype(str)],
      [pd.to_numeric]) is a parameter [Coercions] of the loader. The
      theorems about loading hold for every choice of it; the sample
      tables are loaded with [pandas_coercions], which covers the ISO-8601
      layouts and decimal numerals they use. The single-string
      [pd.to_datetime] of [_parse_iso] is [to_datetime] on ISO-8601
      dates and date-times with [Z] or [+HH:MM] offsets.
    - The module-level dict [_cache] is a [gmap] threaded through each
      request; [load_data] is deterministic on a fixed source, so its
      [lru_cache] memoization does not change any result and is not
      modelled separately. The response is the payload once
      [JSONResponse] has rendered it, or the exception it raises. *)

From Stdlib Require Import Floats.
From stdpp Require Import base gmap strings list.
From Stdlib Require Import ZArith QArith Ascii String Lia Btauto.

Local Open Scope Z_scope.

(* ------------------------------------------------------------------ *)
(** ** Python string helpers: [s.strip().lower()] *)

Definition is_py_space (c : ascii) : bool :=
  let n := nat_of_ascii c in
  (n =? 32)%nat || ((9 <=? n)%nat && (n <=? 13)%nat)
  || ((28 <=? n)%nat && (n <=? 31)%nat).

Fixpoint drop_space (l : list ascii) : list ascii :=
  match l with
  | [] => []
  | c :: l' => if is_py_space c then drop_space l' else l
  end.

(** [str.strip()] *)
Definition strip (s : string) : string :=
  string_of_list_ascii
    (rev (drop_space (rev (drop_space (list_ascii_of_string s))))).

Definition lower_char (c : ascii) : ascii :=
  let n := nat_of_ascii c in
  if ((65 <=? n)%nat && (n <=? 90)%nat) then ascii_of_nat (n + 32) else c.

(** [str.lower()] *)
Fixpoint lower (s : string) : string :=
  match s with
  | EmptyString => EmptyString
  | String c s' => String (lower_char c) (lower s')
  end.

(** [s.strip().lower()], used by the loader, the filters and the key. *)
Definition norm_str (s : string) : string := lower (strip s).

(** Python truthiness of an [Optional[str]]: [if location:]. *)
Definition truthy (o : option string) : bool :=
  match o with
  | Some s => negb (String.eqb s "")
  | None => false
  end.

(* ------------------------------------------------------------------ *)
(** ** [pd.to_datetime(s, utc=True)] on ISO-8601 strings *)

Definition is_digit (c : ascii) : bool :=
  let n := nat_of_ascii c in ((48 <=? n)%nat && (n <=? 57)%nat).

Definition digit_val (c : ascii) : Z := Z.of_nat (nat_of_ascii c) - 48.

(** Read exactly [n] decimal digits, accumulating into [acc]. *)
Fixpoint take_digits (n : nat) (acc : Z) (s : string) : option (Z * string) :=
  match n with
  | O => Some (acc, s)
  | S n' =>
      match s with
      | String c s' =>
          if is_digit c then take_digits n' (acc * 10 + digit_val c) s'
          else None
      | EmptyString => None
      end
  end.

(** Read one expected character. *)
Definition expect (c : ascii) (s : string) : option string :=
  match s with
  | String c' s' => if Ascii.eqb c c' then Some s' else None
  | EmptyString => None
  end.

Definition is_leap (y : Z) : bool :=
  (Z.eqb (y mod 4) 0 && negb (Z.eqb (y mod 100) 0)) || Z.eqb (y mod 400) 0.

Definition days_in_month (y m : Z) : Z :=
  if Z.eqb m 2 then (if is_leap y then 29 else 28)
  else if (Z.eqb m 4 || Z.eqb m 6 || Z.eqb m 9 || Z.eqb m 11) then 30
  else 31.

Definition valid_date (y m d : Z) : bool :=
  (1 <=? m) && (m <=? 12) && (1 <=? d) && (d <=? days_in_month y m).

(** Days from 1970-01-01 to the proleptic Gregorian date [y-m-d]. *)
Definition days_from_civil (y m d : Z) : Z :=
  let y' := if m <=? 2 then y - 1 else y in
  let era := y' / 400 in
  let yoe := y' - era * 400 in
  let mp := if m >? 2 then m - 3 else m + 9 in
  let doy := (153 * mp + 2) / 5 + d - 1 in
  let doe := yoe * 365 + yoe / 4 - yoe / 100 + doy in
  era * 146097 + doe - 719468.

(** ["YYYY-MM-DD"] followed by the rest of the string. *)
Definition parse_date (s : string) : option (Z * Z * Z * string) :=
  match take_digits 4 0 s with
  | None => None
  | Some (y, s1) =>
  match expect "-" s1 with
  | None => None
  | Some s2 =>
  match take_digits 2 0 s2 with
  | None => None
  | Some (m, s3) =>
  match expect "-" s3 with
  | None => None
  | Some s4 =>
  match take_digits 2 0 s4 with
  | None => None
  | Some (d, s5) => if valid_date y m d then Some (y, m, d, s5) else None
  end end end end end.

(** ["HH:MM:SS"] followed by the rest of the string; seconds of the day. *)
Definition parse_time (s : string) : option (Z * string) :=
  match take_digits 2 0 s with
  | None => None
  | Some (hh, s1) =>
  match expect ":" s1 with
  | None => None
  | Some s2 =>
  match take_digits 2 0 s2 with
  | None => None
  | Some (mi, s3) =>
  match expect ":" s3 with
  | None => None
  | Some s4 =>
  match take_digits 2 0 s4 with
  | None => None
  | Some (ss, s5) =>
      if (hh <? 24) && (mi <? 60) && (ss <? 60)
      then Some (hh * 3600 + mi * 60 + ss, s5) else None
  end end end end end.

(** The UTC offset suffix: none (naive, localized to UTC by [utc=True]),
    ["Z"], or ["+HH:MM"] / ["-HH:MM"]; seconds east of UTC. *)
Definition parse_offset (s : string) : option Z :=
  match s with
  | EmptyString => Some 0
  | String c rest =>
      if Ascii.eqb c "Z" then
        (if String.eqb rest "" then Some 0 else None)
      else if Ascii.eqb c "+" || Ascii.eqb c "-" then
        match take_digits 2 0 rest with
        | None => None
        | Some (oh, r1) =>
        match expect ":" r1 with
        | None => None
        | Some r2 =>
        match take_digits 2 0 r2 with
        | Some (om, EmptyString) =>
            if (oh <? 24) && (om <? 60) then
              Some ((if Ascii.eqb c "+" then 1 else -1) * (oh * 3600 + om * 60))
            else None
        | _ => None
        end end end
      else None
  end.

(** [pd.to_datetime(s, utc=True)]: a date alone is midnight UTC of that
    day; a date-time is separated by ["T"] or a space; an offset is
    subtracted to get the UTC instant. [None] stands for [NaT] or an
    exception. *)
Definition to_datetime (s : string) : option Z :=
  match parse_date s with
  | None => None
  | Some (y, m, d, rest) =>
      let day := days_from_civil y m d * 86400 in
      match rest with
      | EmptyString => Some day
      | String c rest' =>
          if Ascii.eqb c "T" || Ascii.eqb c " " then
            match parse_time rest' with
            | None => None
            | Some (secs, r) =>
                match parse_offset r with
                | None => None
                | Some off => Some (day + secs - off)
                end
            end
          else None
      end
  end.

(** [_parse_iso]: [if not date_str: return None], then the parser
    [to_dt] with every failure ([NaT] or an exception) mapped to [None]. *)
Definition parse_iso_with (to_dt : string -> option Z) (date_str : option string)
    : option Z :=
  match date_str with
  | None => None
  | Some s => if String.eqb s "" then None else to_dt s
  end.

Definition parse_iso : option string -> option Z := parse_iso_with to_datetime.

Example to_datetime_epoch : to_datetime "1970-01-01" = Some 0.
Proof. reflexivity. Qed.
Example to_datetime_z :
  to_datetime "2024-01-01T00:00:00Z" = Some 1704067200.
Proof. reflexivity. Qed.
Example to_datetime_off :
  to_datetime "2024-01-01T02:30:00+02:30" = Some 1704067200.
Proof. reflexivity. Qed.
Example strip_lower : norm_str "  Building A	 " = "building a".
Proof. reflexivity. Qed.

(* ------------------------------------------------------------------ *)
(** ** [pd.to_numeric(s, errors="coerce")] on one cell *)

(** C's [isspace]: pandas' number parser skips it around a number. *)
Definition is_c_space (c : ascii) : bool :=
  let n := nat_of_ascii c in ((9 <=? n)%nat && (n <=? 13)%nat) || (n =? 32)%nat.

Fixpoint drop_c_space (l : list ascii) : list ascii :=
  match l with
  | c :: l' => if is_c_space c then drop_c_space l' else l
  | [] => []
  end.

Definition c_strip (s : string) : string :=
  string_of_list_ascii
    (rev (drop_c_space (rev (drop_c_space (list_ascii_of_string s))))).

(** The cells [pd.read_csv] reads as missing ([NaN]) by default. *)
Definition na_tokens : list string :=
  [""; "#N/A"; "#N/A N/A"; "#NA"; "-1.#IND"; "-1.#QNAN"; "-NaN"; "-nan";
   "1.#IND"; "1.#QNAN"; "<NA>"; "N/A"; "NA"; "NULL"; "NaN"; "None";
   "n/a"; "nan"; "null"].

Definition is_na_token (s : string) : bool := existsb (String.eqb s) na_tokens.

(** The integer [m] rounded to the nearest double. *)
Definition float_of_Z (m : Z) : float :=
  SF2Prim (binary_normalize FloatOps.prec FloatOps.emax m 0 false).

(** Read a run of digits: its value, its length and the rest. *)
Fixpoint digit_run (acc : Z) (k : nat) (s : string) : Z * nat * string :=
  match s with
  | String c s' =>
      if is_digit c then digit_run (acc * 10 + digit_val c) (S k) s'
      else (acc, k, s)
  | EmptyString => (acc, k, s)
  end.

(** Digits with an optional fraction and an optional exponent, at least
    one digit before the exponent: the significand [m] and the power of
    ten [e] of the number [m * 10^e]. *)
Definition decimal (s : string) : option (Z * Z) :=
  let '(ip, ni, s1) := digit_run 0 0 s in
  let '(fp, nf, s2) :=
    match s1 with
    | String c s' => if Ascii.eqb c "." then digit_run 0 0 s' else (0, O, s1)
    | EmptyString => (0, O, s1)
    end in
  if (ni + nf =? 0)%nat then None else
  let m := ip * 10 ^ Z.of_nat nf + fp in
  match s2 with
  | EmptyString => Some (m, - Z.of_nat nf)
  | String c s3 =>
      if Ascii.eqb c "e" || Ascii.eqb c "E" then
        let '(esign, s4) :=
          match s3 with
          | String d s' =>
              if Ascii.eqb d "-" then (-1, s')
              else if Ascii.eqb d "+" then (1, s') else (1, s3)
          | EmptyString => (1, s3)
          end in
        let '(ex, ne, s5) := digit_run 0 0 s4 in
        if (ne =? 0)%nat || negb (String.eqb s5 "") then None
        else Some (m, esign * ex - Z.of_nat nf)
      else None
  end.

(** [m * 10^e] as a double: [m] and [10^|e|] rounded, then one product
    or quotient. When [m < 2^53] and [|e| <= 22] both are exact and the
    result is the correctly rounded value, which is what pandas' parsers
    compute for such numerals (all the numerals used below). *)
Definition scale (m e : Z) : float :=
  if m =? 0 then 0%float
  else if 0 <=? e then (float_of_Z m * float_of_Z (10 ^ e))%float
  else (float_of_Z m / float_of_Z (10 ^ (- e)))%float.

Definition sign_split (s : string) : bool * string :=
  match s with
  | String c r =>
      if Ascii.eqb c "-" then (true, r)
      else if Ascii.eqb c "+" then (false, r) else (false, s)
  | EmptyString => (false, s)
  end.

(** One cell through [read_csv] and [pd.to_numeric(..., errors="coerce")]:
    a missing-value token is [NaN]; otherwise, around C whitespace, an
    optional sign and either ["inf"]/["infinity"] (any case) or a
    decimal numeral; anything else is coerced to [NaN]. *)
Definition to_numeric (s : string) : float :=
  if is_na_token s then nan else
  let '(neg, u) := sign_split (c_strip s) in
  let mag :=
    if String.eqb (lower u) "inf" || String.eqb (lower u) "infinity"
    then Some infinity
    else match decimal u with
         | Some (m, e) => Some (scale m e)
         | None => None
         end in
  match mag with
  | Some x => if neg then (- x)%float else x
  | None => nan
  end.

Example to_numeric_dec : to_numeric "-12.50" = (-12.5)%float.
Proof. vm_compute. reflexivity. Qed.
Example to_numeric_exp : to_numeric " 1e3 " = 1000%float.
Proof. vm_compute. reflexivity. Qed.
Example to_numeric_inf : to_numeric "Inf" = infinity.
Proof. vm_compute. reflexivity. Qed.
Example to_numeric_bad : is_nan (to_numeric "n/a") = true /\ is_nan (to_numeric "oops") = true.
Proof. vm_compute. split; reflexivity. Qed.

(* ------------------------------------------------------------------ *)
(** ** [pd.to_datetime] on a column: one format for the whole column *)

(** The layout of a string the ISO parser accepts. *)
Inductive TsFormat := DateOnly | DateTime (sep : ascii) (tz : bool).

Definition ts_format (s : string) : option TsFormat :=
  match to_datetime s, parse_date s with
  | Some _, Some (_, _, _, EmptyString) => Some DateOnly
  | Some _, Some (_, _, _, String c rest) =>
      match parse_time rest with
      | Some (_, r) => Some (DateTime c (negb (String.eqb r "")))
      | None => None
      end
  | _, _ => None
  end.

Definition ts_format_eqb (a b : TsFormat) : bool :=
  match a, b with
  | DateOnly, DateOnly => true
  | DateTime c t, DateTime c' t' => Ascii.eqb c c' && Bool.eqb t t'
  | _, _ => false
  end.

Definition first_non_null (col : list string) : option string :=
  List.find (fun s => negb (is_na_token s)) col.

(** [pd.to_datetime(col, errors="coerce", utc=True)] applied to the cell
    [s] of the column [col]: pandas infers one format from the first
    non-missing cell and coerces the cells of another layout to [NaT];
    when that cell gives no format, each cell is parsed on its own.
    [None] stands for [NaT]. *)
Definition to_datetime_column (col : list string) (s : string) : option Z :=
  if is_na_token s then None else
  match first_non_null col with
  | Some s0 =>
      match ts_format s0 with
      | Some f =>
          match ts_format s with
          | Some g => if ts_format_eqb f g then to_datetime s else None
          | None => None
          end
      | None => to_datetime s
      end
  | None => to_datetime s
  end.

(** [.astype(str)] of a text column: a missing cell is the float [NaN],
    which prints as ["nan"]. *)
Definition astype_str (col : list string) (s : string) : string :=
  if is_na_token s then "nan" else s.

(* ------------------------------------------------------------------ *)
(** ** The CSV source and [load_data] *)

(** One CSV row, projected on the four required columns (other columns
    are ignored by every later step). *)
Record RawRow := mkRawRow {
  r_timestamp : string;
  r_location : string;
  r_sensor : string;
  r_value : string
}.

Record Source := mkSource {
  header : list string;
  rows : list RawRow
}.

(** A row of the normalized data frame, with the helper columns. *)
Record Reading := mkReading {
  timestamp : Z;
  location : string;
  sensor : string;
  value : float;
  location_norm : string;
  sensor_norm : string
}.

(** The exceptions of the endpoint: [load_data]'s schema error, and the
    [ValueError] of [json.dumps(..., allow_nan=False)] when
    [JSONResponse] renders a non-finite float. *)
Inductive Exc := ValueError (missing : list string) | JSONValueError.

Definition required : list string :=
  ["timestamp"; "location"; "sensor"; "value"].

(** [required - set(df.columns)] *)
Definition missing_columns (cols : list string) : list string :=
  List.filter (fun c => negb (existsb (String.eqb c) cols)) required.

(** What pandas does to a cell of a column. [read_csv] decides the type
    of a column from all of its cells, and [pd.to_datetime] infers one
    format per column, so each coercion is given the whole column of the
    CSV besides the cell. *)
Record Coercions := mkCoercions {
  co_timestamp : list string -> string -> option Z;
  co_text : list string -> string -> string;
  co_value : list string -> string -> float
}.

(** [load_data] for given coercions: the column check raises
    [ValueError]; then [to_datetime] and [dropna] on the timestamp, the
    two helper columns, [to_numeric] and [dropna] on the value. *)
Definition load_with (co : Coercions) (src : Source) : Exc + list Reading :=
  match missing_columns (header src) with
  | [] =>
      let rs := rows src in
      let parse_ts := co_timestamp co (map r_timestamp rs) in
      let df1 := omap (fun r => match parse_ts (r_timestamp r) with
                                | Some t => Some (t, r)
                                | None => None
                                end) rs in
      let loc_str := co_text co (map r_location rs) in
      let sen_str := co_text co (map r_sensor rs) in
      let df2 := map (fun '(t, r) => (t, r, norm_str (loc_str (r_location r)),
                                      norm_str (sen_str (r_sensor r)))) df1 in
      let num := co_value co (map r_value rs) in
      inr (omap (fun '(t, r, ln, sn) =>
                   let v := num (r_value r) in
                   if is_nan v then None
                   else Some {| timestamp := t; location := r_location r;
                                sensor := r_sensor r; value := v;
                                location_norm := ln; sensor_norm := sn |}) df2)
  | missing => inl (ValueError missing)
  end.

(** The coercions pandas applies to the text columns of the CSV files
    used below (each has a non-numeric text cell, so [read_csv] keeps it
    as text). *)
Definition pandas_coercions : Coercions :=
  {| co_timestamp := to_datetime_column;
     co_text := astype_str;
     co_value := fun _ s => to_numeric s |}.

Definition load_data (src : Source) : Exc + list Reading :=
  load_with pandas_coercions src.

(* ------------------------------------------------------------------ *)
(** ** The query: filtering and aggregation in [stats] *)

Record Request := mkRequest {
  q_location : option string;
  q_sensor : option string;
  q_start_date : option string;
  q_end_date : option string
}.

(** The filter block of [stats], one step per [if], with [_parse_iso]
    given as [parse]. *)
Definition filter_rows_with (parse : option string -> option Z)
    (df : list Reading) (q : Request) : list Reading :=
  let flt := df in
  let flt := match q_location q with
             | Some l => if String.eqb l "" then flt
                         else List.filter (fun r => String.eqb (location_norm r) (norm_str l)) flt
             | None => flt
             end in
  let flt := match q_sensor q with
             | Some s => if String.eqb s "" then flt
                         else List.filter (fun r => String.eqb (sensor_norm r) (norm_str s)) flt
             | None => flt
             end in
  let start_ts := parse (q_start_date q) in
  let end_ts := parse (q_end_date q) in
  let flt := match start_ts with
             | Some st => List.filter (fun r => st <=? timestamp r) flt
             | None => flt
             end in
  let flt := match end_ts with
             | Some en => List.filter (fun r => timestamp r <=? en) flt
             | None => flt
             end in
  flt.

Definition filter_rows (df : list Reading) (q : Request) : list Reading :=
  filter_rows_with parse_iso df q.

Record Stats := mkStats {
  st_count : nat;
  st_avg : option float;
  st_min : option float;
  st_max : option float
}.

(** numpy's [pairwise_sum] for float64: below 8 elements a plain loop
    from [-0.0]; up to 128 elements eight running sums combined pairwise,
    then the remainder; above, the two halves (the first rounded down to
    a multiple of 8) summed separately. *)
Definition pw_small (a : list float) : float := fold_left PrimFloat.add a (-0)%float.

Fixpoint chunks (k fuel : nat) (a : list float) : list (list float) :=
  match fuel with
  | O => []
  | S f => match a with
           | [] => []
           | _ => firstn k a :: chunks k f (skipn k a)
           end
  end.

Definition add8 (r g : list float) : list float := zip_with PrimFloat.add r g.

Definition pw_block (a : list float) : float :=
  let n := List.length a in
  let m := (n - n mod 8)%nat in
  match chunks 8 n (firstn m a) with
  | [] => 0%float
  | g :: gs =>
      match fold_left add8 gs g with
      | [r0; r1; r2; r3; r4; r5; r6; r7] =>
          fold_left PrimFloat.add (skipn m a)
            (((r0 + r1) + (r2 + r3)) + ((r4 + r5) + (r6 + r7)))%float
      | _ => 0%float
      end
  end.

Fixpoint pairwise_sum (fuel : nat) (a : list float) : float :=
  match fuel with
  | O => 0%float
  | S f =>
      let n := List.length a in
      if (n <? 8)%nat then pw_small a
      else if (n <=? 128)%nat then pw_block a
      else let n2 := (n / 2 - (n / 2) mod 8)%nat in
           (pairwise_sum f (firstn n2 a) + pairwise_sum f (skipn n2 a))%float
  end.

(** [np.add.reduce] on a float64 column: the identity [0.0], plus the
    pairwise sum of each buffer of 8192 elements. *)
Definition np_sum (a : list float) : float :=
  fold_left (fun acc b => (acc + pairwise_sum (List.length b) b)%float)
            (chunks 8192 (List.length a) a) 0%float.

(** [np.minimum.reduce] and [np.maximum.reduce] on values that are not
    [NaN]. (Of [0.0] and [-0.0], which compare equal, numpy's vector
    loops may keep either; nothing below depends on which.) *)
Definition np_min (x : float) (rest : list float) : float :=
  fold_left (fun acc y => if (acc <=? y)%float then acc else y) rest x.

Definition np_max (x : float) (rest : list float) : float :=
  fold_left (fun acc y => if (y <=? acc)%float then acc else y) rest x.

(** The "Compute stats" block of [stats]: [vals.mean()] is the sum
    divided by the count, both float64. *)
Definition compute_stats (df : list Reading) (q : Request) : Stats :=
  match filter_rows df q with
  | [] => {| st_count := 0; st_avg := None; st_min := None; st_max := None |}
  | r :: rs =>
      let vals := map value (r :: rs) in
      {| st_count := List.length vals;
         st_avg := Some (np_sum vals / float_of_Z (Z.of_nat (List.length vals)))%float;
         st_min := Some (np_min (value r) (map value rs));
         st_max := Some (np_max (value r) (map value rs)) |}
  end.

(* ------------------------------------------------------------------ *)
(** ** The response cache and the [/stats] endpoint *)

Abbreviation Key := (option string * option string * option string * option string)%type.

(** [norm = lambda s: s.strip().lower() if isinstance(s, str) else None] *)
Definition norm_key (o : option string) : option string :=
  match o with
  | Some s => Some (norm_str s)
  | None => None
  end.

Definition cache_key (q : Request) : Key :=
  (norm_key (q_location q), norm_key (q_sensor q),
   norm_key (q_start_date q), norm_key (q_end_date q)).

Inductive XCache := HIT | MISS.

Abbreviation Response := (Exc + Stats * XCache)%type.

Definition finite_or_null (o : option float) : bool :=
  match o with
  | Some x => is_finite x
  | None => true
  end.

(** [json.dumps] with [allow_nan=False] accepts the payload when no
    float in it is infinite or [NaN]. *)
Definition json_ok (p : Stats) : bool :=
  finite_or_null (st_avg p) && finite_or_null (st_min p) && finite_or_null (st_max p).

(** [JSONResponse(content=payload, headers={"X-Cache": tag})]: the
    payload is rendered when the response is built. *)
Definition json_response (p : Stats) (tag : XCache) : Response :=
  if json_ok p then inr (p, tag) else inl JSONValueError.

(** The [/stats] handler on the cache [_cache]: a hit responds with the
    stored payload; a miss loads the table (an exception propagates and
    nothing is stored), computes, stores, then responds. *)
Definition stats (src : Source) (cache : gmap Key Stats) (q : Request)
    : Response * gmap Key Stats :=
  let key := cache_key q in
  match cache !! key with
  | Some payload => (json_response payload HIT, cache)
  | None =>
      match load_data src with
      | inl e => (inl e, cache)
      | inr df =>
          let payload := compute_stats df q in
          (json_response payload MISS, <[key := payload]> cache)
      end
  end.

(** A sequence of requests served one after another. *)
Fixpoint serve (src : Source) (cache : gmap Key Stats) (qs : list Request)
    : list Response * gmap Key Stats :=
  match qs with
  | [] => ([], cache)
  | q :: qs' =>
      let '(resp, cache') := stats src cache q in
      let '(resps, cache'') := serve src cache' qs' in
      (resp :: resps, cache'')
  end.

(* ------------------------------------------------------------------ *)
(** ** Sample data *)

Definition temp_source : Source :=
  {| header := ["timestamp"; "location"; "sensor"; "value"];
     rows := [ mkRawRow "2024-01-01T00:00:00Z" "Building A" "temp" "10";
               mkRawRow "2024-01-15T12:00:00Z" "Building A" " Temp" "20";
               mkRawRow "2024-01-31T00:00:00Z" "building a " "TEMP" "30";
               mkRawRow "not a date" "Building A" "temp" "40";
               mkRawRow "2024-01-20T00:00:00Z" "Building A" "temp" "oops" ] |}.

Definition temp_query : Request :=
  {| q_location := None; q_sensor := Some "temp";
     q_start_date := Some "2024-01-01T00:00:00Z";
     q_end_date := Some "2024-01-31T00:00:00+00:00" |}.

Example temp_stats :
  match load_data temp_source with
  | inr df => st_count (compute_stats df temp_query) = 3%nat
  | inl _ => False
  end.
Proof. vm_compute. reflexivity. Qed.

(** ** The query criteria as the spec states them (section 4.2) *)

(** A present criterion constrains, an absent one does not. *)
Definition opt_holds {A} (o : option A) (p : A -> bool) : bool :=
  match o with
  | Some a => p a
  | None => true
  end.

(** A string criterion is present when the parameter is a non-empty
    string; it is compared in trimmed, lower-cased form. *)
Definition crit_string (o : option string) : option string :=
  if truthy o then norm_key o else None.

(** Conjunctive matching: every present criterion holds, the time window
    being inclusive on both ends. *)
Definition matches (q : Request) (r : Reading) : bool :=
  opt_holds (crit_string (q_location q)) (fun l => String.eqb (location_norm r) l) &&
  opt_holds (crit_string (q_sensor q)) (fun s => String.eqb (sensor_norm r) s) &&
  opt_holds (parse_iso (q_start_date q)) (fun st => st <=? timestamp r) &&
  opt_holds (parse_iso (q_end_date q)) (fun en => timestamp r <=? en).

(* ------------------------------------------------------------------ *)
(** ** Lemmas on filtering and aggregation *)

Lemma filter_filter_andb {A} (p1 p2 : A -> bool) (l : list A) :
  List.filter p2 (List.filter p1 l) = List.filter (fun x => p1 x && p2 x) l.
Proof.
  induction l as [|x l IH]; simpl; [reflexivity|].
  destruct (p1 x) eqn:E1; simpl; [destruct (p2 x); simpl|]; now rewrite IH.
Qed.

Lemma filter_all_true {A} (l : list A) : l = List.filter (fun _ => true) l.
Proof. induction l as [|x l IH]; simpl; congruence. Qed.

Lemma filter_rows_matches (df : list Reading) (q : Request) :
  filter_rows df q = List.filter (matches q) df.
Proof.
  unfold filter_rows, filter_rows_with, matches, crit_string, truthy, norm_key.
  destruct (q_location q) as [l|]; [destruct (String.eqb l "")|];
  destruct (q_sensor q) as [s|]; try destruct (String.eqb s "");
  destruct (parse_iso (q_start_date q)); destruct (parse_iso (q_end_date q));
  simpl; rewrite ?filter_filter_andb;
  try (etransitivity; [apply (filter_all_true df)|]);
  apply List.filter_ext; intros r; btauto.
Qed.

(** The order of doubles that are not [NaN]: through [leb_spec], the
    comparison of their specification, which is lexicographic on the
    class, the exponent and the significand. *)
Definition sf_key (f : spec_float) : Z * Z * Z :=
  match f with
  | S754_infinity true => (0, 0, 0)
  | S754_finite true m e => (1, - e, - Zpos m)
  | S754_zero _ => (2, 0, 0)
  | S754_finite false m e => (3, e, Zpos m)
  | S754_infinity false => (4, 0, 0)
  | S754_nan => (5, 0, 0)
  end.

Definition lex_le (a b : Z * Z * Z) : Prop :=
  let '(a1, a2, a3) := a in
  let '(b1, b2, b3) := b in
  a1 < b1 \/ (a1 = b1 /\ (a2 < b2 \/ (a2 = b2 /\ a3 <= b3))).

Lemma lex_le_trans a b c : lex_le a b -> lex_le b c -> lex_le a c.
Proof. destruct a as [[? ?] ?], b as [[? ?] ?], c as [[? ?] ?]; simpl; lia. Qed.

Lemma lex_le_total a b : lex_le a b \/ lex_le b a.
Proof. destruct a as [[? ?] ?], b as [[? ?] ?]; simpl; lia. Qed.

Lemma SFleb_key (f g : spec_float) :
  f <> S754_nan -> g <> S754_nan ->
  SFleb f g = true <-> lex_le (sf_key f) (sf_key g).
Proof.
  intros Hf Hg. unfold SFleb, SFcompare.
  destruct f as [[]|[]| |[] mf ef], g as [[]|[]| |[] mg eg]; try congruence;
    simpl; try (split; [intros _; lia | reflexivity]);
    try (split; [discriminate | lia]);
    change (Pos.compare_cont Eq mf mg) with (Pos.compare mf mg);
    destruct (Z.compare_spec ef eg), (Pos.compare_spec mf mg); simpl;
    split; try lia; try discriminate; try reflexivity.
Qed.

Lemma Prim2SF_not_nan (x : float) : is_nan x = false -> Prim2SF x <> S754_nan.
Proof.
  intros H. unfold Prim2SF. rewrite H.
  destruct (is_zero x); [discriminate|]. destruct (is_infinity x); [discriminate|].
  destruct (Z.frexp x) as [r e].
  destruct (shr_fexp _ _ _ _ _) as [shr e'].
  destruct (shr_m shr); discriminate.
Qed.

Lemma leb_key (x y : float) :
  is_nan x = false -> is_nan y = false ->
  (x <=? y)%float = true <-> lex_le (sf_key (Prim2SF x)) (sf_key (Prim2SF y)).
Proof.
  intros Hx Hy. rewrite leb_spec. apply SFleb_key; now apply Prim2SF_not_nan.
Qed.

Lemma leb_trans (x y z : float) :
  is_nan x = false -> is_nan y = false -> is_nan z = false ->
  (x <=? y)%float = true -> (y <=? z)%float = true -> (x <=? z)%float = true.
Proof. intros Hx Hy Hz. rewrite !leb_key by assumption. apply lex_le_trans. Qed.

Lemma leb_total (x y : float) :
  is_nan x = false -> is_nan y = false ->
  (x <=? y)%float = false -> (y <=? x)%float = true.
Proof.
  intros Hx Hy E. apply leb_key; [assumption..|].
  destruct (lex_le_total (sf_key (Prim2SF x)) (sf_key (Prim2SF y))) as [H|H]; [|exact H].
  apply leb_key in H; congruence.
Qed.

Lemma leb_refl (x : float) : is_nan x = false -> (x <=? x)%float = true.
Proof.
  intros Hx. apply leb_key; [assumption..|].
  destruct (sf_key (Prim2SF x)) as [[? ?] ?]. simpl. lia.
Qed.

Lemma np_min_spec (x : float) (rest : list float) :
  Forall (fun y => is_nan y = false) (x :: rest) ->
  In (np_min x rest) (x :: rest) /\
  forall y, In y (x :: rest) -> (np_min x rest <=? y)%float = true.
Proof.
  revert x; induction rest as [|z rest IH]; intros x Hall.
  - apply Forall_cons in Hall as [Hx _]. split; [now left|].
    intros y [<-|[]]. now apply leb_refl.
  - apply Forall_cons in Hall as [Hx Hall]. apply Forall_cons in Hall as [Hz Hr].
    unfold np_min. cbn [fold_left]. fold (np_min (if (x <=? z)%float then x else z) rest).
    set (a := if (x <=? z)%float then x else z).
    assert (Ha : is_nan a = false) by (unfold a; now destruct (x <=? z)%float).
    destruct (IH a ltac:(constructor; assumption)) as [Hin Hle].
    assert (Hax : (a <=? x)%float = true /\ (a <=? z)%float = true).
    { unfold a. destruct (x <=? z)%float eqn:E.
      - split; [now apply leb_refl | exact E].
      - split; [now apply leb_total | now apply leb_refl]. }
    split.
    + destruct Hin as [E|E]; [|right; right; exact E].
      rewrite <- E. unfold a. destruct (x <=? z)%float; simpl; tauto.
    + assert (Hm : is_nan (np_min a rest) = false).
      { destruct Hin as [<-|E]; [exact Ha|].
        eapply Forall_forall in Hr; [exact Hr | now apply list_elem_of_In]. }
      intros y [<-|[<-|Hy]].
      * eapply leb_trans; [exact Hm | exact Ha | exact Hx | apply Hle; now left | apply Hax].
      * eapply leb_trans; [exact Hm | exact Ha | exact Hz | apply Hle; now left | apply Hax].
      * apply Hle. now right.
Qed.

Lemma np_max_spec (x : float) (rest : list float) :
  Forall (fun y => is_nan y = false) (x :: rest) ->
  In (np_max x rest) (x :: rest) /\
  forall y, In y (x :: rest) -> (y <=? np_max x rest)%float = true.
Proof.
  revert x; induction rest as [|z rest IH]; intros x Hall.
  - apply Forall_cons in Hall as [Hx _]. split; [now left|].
    intros y [<-|[]]. now apply leb_refl.
  - apply Forall_cons in Hall as [Hx Hall]. apply Forall_cons in Hall as [Hz Hr].
    unfold np_max. cbn [fold_left]. fold (np_max (if (z <=? x)%float then x else z) rest).
    set (a := if (z <=? x)%float then x else z).
    assert (Ha : is_nan a = false) by (unfold a; now destruct (z <=? x)%float).
    destruct (IH a ltac:(constructor; assumption)) as [Hin Hle].
    assert (Hax : (x <=? a)%float = true /\ (z <=? a)%float = true).
    { unfold a. destruct (z <=? x)%float eqn:E.
      - split; [now apply leb_refl | exact E].
      - split; [now apply leb_total | now apply leb_refl]. }
    split.
    + destruct Hin as [E|E]; [|right; right; exact E].
      rewrite <- E. unfold a. destruct (z <=? x)%float; simpl; tauto.
    + assert (Hm : is_nan (np_max a rest) = false).
      { destruct Hin as [<-|E]; [exact Ha|].
        eapply Forall_forall in Hr; [exact Hr | now apply list_elem_of_In]. }
      intros y [<-|[<-|Hy]].
      * eapply leb_trans; [exact Hx | exact Ha | exact Hm | apply Hax | apply Hle; now left].
      * eapply leb_trans; [exact Hz | exact Ha | exact Hm | apply Hax | apply Hle; now left].
      * apply Hle. now right.
Qed.

(* ------------------------------------------------------------------ *)
(** ** The loader, one row at a time *)

(** The reading a source row becomes, in one pass, for coercions [co]
    and the rows [rs] of the CSV. *)
Definition row_reading (co : Coercions) (rs : list RawRow) (raw : RawRow) : option Reading :=
  match co_timestamp co (map r_timestamp rs) (r_timestamp raw) with
  | Some t =>
      let v := co_value co (map r_value rs) (r_value raw) in
      if is_nan v then None
      else Some {| timestamp := t; location := r_location raw; sensor := r_sensor raw;
                   value := v;
                   location_norm := norm_str (co_text co (map r_location rs) (r_location raw));
                   sensor_norm := norm_str (co_text co (map r_sensor rs) (r_sensor raw)) |}
  | None => None
  end.

(** A source row is excluded when its timestamp is coerced to [NaT] or
    its value to [NaN]. *)
Definition row_excluded (co : Coercions) (rs : list RawRow) (raw : RawRow) : bool :=
  match co_timestamp co (map r_timestamp rs) (r_timestamp raw) with
  | Some _ => is_nan (co_value co (map r_value rs) (r_value raw))
  | None => true
  end.

Lemma omap_cons {A B} (f : A -> option B) (x : A) (l : list A) :
  omap f (x :: l) = match f x with Some y => y :: omap f l | None => omap f l end.
Proof. reflexivity. Qed.

Lemma load_pipeline_one_pass (co : Coercions) (rs all : list RawRow) :
  let parse_ts := co_timestamp co (map r_timestamp all) in
  let loc_str := co_text co (map r_location all) in
  let sen_str := co_text co (map r_sensor all) in
  let num := co_value co (map r_value all) in
  omap (fun '(t, r, ln, sn) =>
          let v := num (r_value r) in
          if is_nan v then None
          else Some {| timestamp := t; location := r_location r;
                       sensor := r_sensor r; value := v;
                       location_norm := ln; sensor_norm := sn |})
       (map (fun '(t, r) => (t, r, norm_str (loc_str (r_location r)),
                             norm_str (sen_str (r_sensor r))))
            (omap (fun r => match parse_ts (r_timestamp r) with
                            | Some t => Some (t, r)
                            | None => None
                            end) rs))
  = omap (row_reading co all) rs.
Proof.
  intros parse_ts loc_str sen_str num.
  induction rs as [|raw rs IH]; [reflexivity|].
  rewrite !omap_cons. set (R := omap (row_reading co all) rs) in *.
  unfold row_reading. fold parse_ts num loc_str sen_str.
  destruct (parse_ts (r_timestamp raw)) as [t|]; [|exact IH].
  cbn [map]. rewrite omap_cons. cbn beta iota.
  destruct (is_nan (num (r_value raw))); [exact IH|]. f_equal. exact IH.
Qed.

Lemma load_with_rows (co : Coercions) (src : Source) (df : list Reading) :
  load_with co src = inr df -> df = omap (row_reading co (rows src)) (rows src).
Proof.
  unfold load_with. destruct (missing_columns (header src)); [|discriminate].
  intros H. injection H as <-. apply load_pipeline_one_pass.
Qed.

Lemma row_reading_None (co : Coercions) (rs : list RawRow) (raw : RawRow) :
  row_reading co rs raw = None <-> row_excluded co rs raw = true.
Proof.
  unfold row_reading, row_excluded.
  destruct (co_timestamp _ _ _); [|split; reflexivity].
  destruct (is_nan _); split; congruence.
Qed.

Lemma row_reading_Some (co : Coercions) (rs : list RawRow) (raw : RawRow) (r : Reading) :
  row_reading co rs raw = Some r ->
  row_excluded co rs raw = false /\
  co_timestamp co (map r_timestamp rs) (r_timestamp raw) = Some (timestamp r) /\
  co_value co (map r_value rs) (r_value raw) = value r /\
  is_nan (value r) = false.
Proof.
  unfold row_reading, row_excluded.
  destruct (co_timestamp _ _ _) as [t|]; [|discriminate].
  destruct (is_nan _) eqn:E; [discriminate|].
  intros H. injection H as <-. simpl. auto.
Qed.

Lemma length_omap_excluded (co : Coercions) (all rs : list RawRow) :
  (List.length (omap (row_reading co all) rs) +
   List.length (List.filter (row_excluded co all) rs) = List.length rs)%nat.
Proof.
  induction rs as [|raw rs IH]; [reflexivity|].
  rewrite omap_cons. cbn [List.filter List.length].
  destruct (row_reading co all raw) eqn:E.
  - assert (row_excluded co all raw = false) as ->.
    { destruct (row_excluded co all raw) eqn:X; [|reflexivity].
      apply row_reading_None in X. congruence. }
    cbn [List.length]. lia.
  - apply row_reading_None in E. rewrite E. cbn [List.length]. lia.
Qed.

Lemma load_with_not_nan (co : Coercions) (src : Source) (df : list Reading) :
  load_with co src = inr df -> Forall (fun r => is_nan (value r) = false) df.
Proof.
  intros H. apply load_with_rows in H. subst df.
  apply Forall_forall. intros r Hr.
  apply list_elem_of_omap in Hr as [raw [_ E]].
  now apply row_reading_Some in E as [_ [_ [_ ?]]].
Qed.

(** The exact rational value of a finite double ([0] for the others). *)
Definition float_Q (x : float) : Q :=
  match Prim2SF x with
  | S754_finite s m e =>
      let q := if 0 <=? e then inject_Z (Zpos m * 2 ^ e)
               else Qmake (Zpos m) (Pos.pow 2 (Z.to_pos (- e))) in
      if s then Qopp q else q
  | _ => 0%Q
  end.

Definition tenths_source : Source :=
  {| header := ["timestamp"; "location"; "sensor"; "value"];
     rows := [ mkRawRow "2024-01-01T00:00:00Z" "Building A" "temp" "0.1";
               mkRawRow "2024-01-02T00:00:00Z" "Building A" "temp" "0.2" ] |}.

Definition tenths_df : list Reading :=
  match load_data tenths_source with
  | inr df => df
  | inl _ => []
  end.

(* ------------------------------------------------------------------ *)
(** ** Claims *)

(** C2, counterexample: the values 0.1 and 0.2 (the doubles nearest to
    them) both match [temp_query]; [vals.mean()] is the double sum
    0.30000000000000004 halved, 0.15000000000000002, which is not the
    arithmetic mean of the two values. *)
Lemma stats_avg_not_exact_mean :
  load_data tenths_source = inr tenths_df /\
  map value (filter_rows tenths_df temp_query) = [0.1; 0.2]%float /\
  st_avg (compute_stats tenths_df temp_query) = Some 0.15000000000000002%float /\
  ~ (float_Q 0.15000000000000002 == (float_Q 0.1 + float_Q 0.2) / 2)%Q.
Proof.
  split; [vm_compute; reflexivity|]. split; [vm_compute; reflexivity|].
  split; [vm_compute; reflexivity|].
  unfold Qeq. vm_compute. discriminate.
Qed.

(** C2, as amended: the stats of a query on a table without [NaN] values
    (every loaded table is one) count exactly the readings on which every
    present criterion holds; with no match, avg/min/max are all absent;
    otherwise avg is numpy's float64 sum of the matching values divided by
    their count, and min/max are matching values that bound every matching
    value. On the sample table (values 10, 20, 30 matching, plus one row
    with a bad timestamp and one with a bad value), the result is count 3,
    avg 20.0, min 10.0, max 30.0. *)
Theorem stats_aggregate_float :
  (forall (df : list Reading) (q : Request),
     Forall (fun r => is_nan (value r) = false) df ->
     let m := List.filter (matches q) df in
     let s := compute_stats df q in
     st_count s = List.length m /\
     (m = [] -> st_avg s = None /\ st_min s = None /\ st_max s = None) /\
     (m <> [] ->
        st_avg s = Some (np_sum (map value m) / float_of_Z (Z.of_nat (List.length m)))%float /\
        exists lo hi,
          st_min s = Some lo /\ st_max s = Some hi /\
          In lo (map value m) /\ In hi (map value m) /\
          (forall r, In r m -> (lo <=? value r)%float = true /\ (value r <=? hi)%float = true))) /\
  (forall co src df, load_with co src = inr df -> Forall (fun r => is_nan (value r) = false) df) /\
  (exists df, load_data temp_source = inr df /\
     compute_stats df temp_query =
       {| st_count := 3; st_avg := Some 20%float;
          st_min := Some 10%float; st_max := Some 30%float |}).
Proof.
  split; [|split; [exact load_with_not_nan|]].
  - intros df q Hnan m s. subst m s. unfold compute_stats.
    rewrite filter_rows_matches.
    assert (Hm : Forall (fun r => is_nan (value r) = false) (List.filter (matches q) df)).
    { apply Forall_forall. intros r Hr. apply list_elem_of_In, List.filter_In in Hr as [Hr _].
      eapply Forall_forall in Hnan; [exact Hnan | now apply list_elem_of_In]. }
    destruct (List.filter (matches q) df) as [|r rs] eqn:E.
    + simpl. repeat split; congruence.
    + split; [simpl; now rewrite length_map|]. split; [congruence|].
      intros _. split; [now rewrite length_map|].
      assert (Hv : Forall (fun y => is_nan y = false) (value r :: map value rs)).
      { change (value r :: map value rs) with (map value (r :: rs)).
        apply Forall_map. exact Hm. }
      destruct (np_min_spec (value r) (map value rs) Hv) as [Imin Lmin].
      destruct (np_max_spec (value r) (map value rs) Hv) as [Imax Lmax].
      do 2 eexists. split; [reflexivity|]. split; [reflexivity|].
      split; [exact Imin|]. split; [exact Imax|].
      intros r' Hr'. split.
      * apply Lmin. change (value r :: map value rs) with (map value (r :: rs)).
        now apply in_map.
      * apply Lmax. change (value r :: map value rs) with (map value (r :: rs)).
        now apply in_map.
  - eexists. split; [vm_compute; reflexivity|]. vm_compute. reflexivity.
Qed.

(** C3, as amended: asking the same query twice, the second time with any
    spelling that normalizes to the same key, the first call computes the
    stats [p], stores them and responds MISS, and the second responds HIT
    from the stored [p] without loading or computing anything (it does not
    depend on the source at all). When avg, min and max are finite both
    responses carry [p]; when one of them is infinite the entry is stored
    all the same and both calls raise the JSON [ValueError]. *)
Theorem stats_twice_same_entry (src : Source) (df : list Reading)
    (cache : gmap Key Stats) (q1 q2 : Request)
    (Hload : load_data src = inr df)
    (Hnew : cache !! cache_key q1 = None)
    (Hkey : cache_key q1 = cache_key q2) :
  let p := compute_stats df q1 in
  let cache1 := <[cache_key q1 := p]> cache in
  stats src cache q1 = (json_response p MISS, cache1) /\
  (forall src' : Source, stats src' cache1 q2 = (json_response p HIT, cache1)) /\
  (json_ok p = true ->
     json_response p MISS = inr (p, MISS) /\ json_response p HIT = inr (p, HIT)) /\
  (json_ok p = false ->
     json_response p MISS = inl JSONValueError /\ json_response p HIT = inl JSONValueError).
Proof.
  intros p cache1. split; [|split; [|split]].
  - unfold stats. now rewrite Hnew, Hload.
  - intros src'. unfold stats, cache1. rewrite <- Hkey.
    now rewrite lookup_insert_eq.
  - intros H. unfold json_response. now rewrite H.
  - intros H. unfold json_response. now rewrite H.
Qed.

Definition temp_query_recased : Request :=
  {| q_location := None; q_sensor := Some "  TEMP ";
     q_start_date := Some " 2024-01-01T00:00:00z";
     q_end_date := Some "2024-01-31T00:00:00+00:00" |}.

Lemma stats_twice_same_entry_witness :
  exists df, load_data temp_source = inr df /\
  json_ok (compute_stats df temp_query) = true /\
  let p := compute_stats df temp_query in
  let cache1 := <[cache_key temp_query := p]> (∅ : gmap Key Stats) in
  stats temp_source ∅ temp_query = (json_response p MISS, cache1) /\
  (forall src' : Source, stats src' cache1 temp_query_recased = (json_response p HIT, cache1)) /\
  (json_ok p = true ->
     json_response p MISS = inr (p, MISS) /\ json_response p HIT = inr (p, HIT)) /\
  (json_ok p = false ->
     json_response p MISS = inl JSONValueError /\ json_response p HIT = inl JSONValueError).
Proof.
  eexists. split; [vm_compute; reflexivity|].
  split; [vm_compute; reflexivity|].
  apply stats_twice_same_entry;
    [vm_compute; reflexivity | reflexivity | vm_compute; reflexivity].
Defined.

(** Two readings of 1e308, whose float64 sum overflows. *)
Definition overflow_source : Source :=
  {| header := ["timestamp"; "location"; "sensor"; "value"];
     rows := [ mkRawRow "2024-01-01T00:00:00Z" "Building A" "temp" "1e308";
               mkRawRow "2024-01-02T00:00:00Z" "Building A" "temp" "1e308" ] |}.

Definition overflow_stats : Stats :=
  {| st_count := 2; st_avg := Some infinity;
     st_min := Some 1e308%float; st_max := Some 1e308%float |}.

(** C3, counterexample: on a table of two readings of 1e308 the mean
    is infinite. The first request stores the entry and the second one
    finds it, but neither returns stats: rendering the infinite avg
    raises [ValueError] on both calls, MISS and HIT alike. *)
Lemma stats_twice_overflow_fails :
  let r1 := stats overflow_source ∅ temp_query in
  fst r1 = inl JSONValueError /\
  snd r1 !! cache_key temp_query = Some overflow_stats /\
  cache_key temp_query_recased = cache_key temp_query /\
  fst (stats overflow_source (snd r1) temp_query_recased) = inl JSONValueError.
Proof. vm_compute. repeat split. Qed.

(** C4: the time window is inclusive: a reading satisfying the location
    and sensor criteria whose timestamp equals the parsed start bound (and
    lies within the end bound, if any), or equals the parsed end bound
    (and lies within the start bound, if any), is kept by the filter, so
    it is counted in the aggregate. *)
Theorem window_inclusive (df : list Reading) (q : Request) (r : Reading)
    (Hin : In r df)
    (Hloc : opt_holds (crit_string (q_location q))
              (fun l => String.eqb (location_norm r) l) = true)
    (Hsen : opt_holds (crit_string (q_sensor q))
              (fun s => String.eqb (sensor_norm r) s) = true)
    (Hedge : (parse_iso (q_start_date q) = Some (timestamp r) /\
              opt_holds (parse_iso (q_end_date q)) (fun en => timestamp r <=? en) = true)
             \/
             (parse_iso (q_end_date q) = Some (timestamp r) /\
              opt_holds (parse_iso (q_start_date q)) (fun st => st <=? timestamp r) = true)) :
  In r (filter_rows df q).
Proof.
  rewrite filter_rows_matches. apply List.filter_In. split; [exact Hin|].
  unfold matches. rewrite Hloc, Hsen. simpl.
  destruct Hedge as [[Hs He] | [He Hs]].
  - rewrite Hs, He. simpl. now rewrite Z.leb_refl.
  - rewrite Hs, He. simpl. rewrite Z.leb_refl. now destruct (opt_holds _ _).
Qed.

Definition temp_df : list Reading :=
  match load_data temp_source with
  | inr df => df
  | inl _ => []
  end.

Definition jan1_reading : Reading :=
  {| timestamp := 1704067200; location := "Building A"; sensor := "temp";
     value := 10%float; location_norm := "building a"; sensor_norm := "temp" |}.

Lemma window_inclusive_witness :
  In jan1_reading temp_df /\ In jan1_reading (filter_rows temp_df temp_query).
Proof.
  split; [vm_compute; left; reflexivity|].
  apply window_inclusive.
  - vm_compute. left. reflexivity.
  - reflexivity.
  - reflexivity.
  - left. split; reflexivity.
Defined.

(** C6: when a required column is absent, [load_data] raises
    [ValueError] naming the missing columns, and nothing catches it: from
    the initial empty cache, every request of any sequence fails with that
    error and the cache stays empty, so no query ever succeeds. *)
Theorem load_missing_column_fatal (src : Source)
    (Hmiss : missing_columns (header src) <> []) :
  load_data src = inl (ValueError (missing_columns (header src))) /\
  forall qs : list Request,
    serve src ∅ qs =
      (map (fun _ => inl (ValueError (missing_columns (header src)))) qs, ∅).
Proof.
  assert (Hl : load_data src = inl (ValueError (missing_columns (header src)))).
  { unfold load_data, load_with. destruct (missing_columns (header src)); congruence. }
  split; [exact Hl|].
  induction qs as [|q qs IH]; simpl; [reflexivity|].
  unfold stats. rewrite lookup_empty, Hl. now rewrite IH.
Qed.

Definition no_value_source : Source :=
  {| header := ["timestamp"; "location"; "sensor"];
     rows := [ mkRawRow "2024-01-01" "Building A" "temp" "" ] |}.

Lemma load_missing_column_fatal_witness :
  missing_columns (header no_value_source) = ["value"] /\
  load_data no_value_source = inl (ValueError ["value"]) /\
  serve no_value_source ∅ [temp_query; temp_query_recased] =
    ([inl (ValueError ["value"]); inl (ValueError ["value"])], ∅).
Proof.
  split; [reflexivity|].
  assert (H : missing_columns (header no_value_source) <> []) by discriminate.
  destruct (load_missing_column_fatal no_value_source H) as [Hl Hs].
  split; [exact Hl|]. exact (Hs [temp_query; temp_query_recased]).
Defined.

(** C7: for any way pandas coerces the cells, a successful load gives
    exactly the readings of the rows that are not excluded, in source
    order: an excluded row (its timestamp coerced to [NaT] or its value
    to [NaN]) yields no reading, so it cannot reach any aggregate; every
    reading comes from a row whose timestamp was coerced to its UTC
    instant and whose value was coerced to its value, which is not
    [NaN]; and the number of readings is the number of rows minus the
    number of excluded rows. *)
Theorem load_row_exclusion (co : Coercions) (src : Source) (df : list Reading)
    (Hload : load_with co src = inr df) :
  df = omap (row_reading co (rows src)) (rows src) /\
  (forall raw, row_excluded co (rows src) raw = true -> row_reading co (rows src) raw = None) /\
  (forall r, In r df -> is_nan (value r) = false /\
     exists raw, In raw (rows src) /\
       row_excluded co (rows src) raw = false /\
       co_timestamp co (map r_timestamp (rows src)) (r_timestamp raw) = Some (timestamp r) /\
       co_value co (map r_value (rows src)) (r_value raw) = value r) /\
  List.length df =
    (List.length (rows src) - List.length (List.filter (row_excluded co (rows src)) (rows src)))%nat.
Proof.
  pose proof (load_with_rows co src df Hload) as Hdf.
  split; [exact Hdf|]. split; [intros raw; apply row_reading_None|]. split.
  - intros r Hr. rewrite Hdf in Hr.
    apply list_elem_of_In, list_elem_of_omap in Hr as [raw [Hraw E]].
    apply row_reading_Some in E as [X [T [V N]]].
    split; [exact N|]. exists raw. split; [now apply list_elem_of_In|]. auto.
  - rewrite Hdf. pose proof (length_omap_excluded co (rows src) (rows src)). lia.
Qed.

Lemma load_row_exclusion_witness :
  load_with pandas_coercions temp_source = inr temp_df /\
  List.length temp_df = 3%nat /\
  List.length (List.filter (row_excluded pandas_coercions (rows temp_source)) (rows temp_source)) = 2%nat /\
  temp_df = omap (row_reading pandas_coercions (rows temp_source)) (rows temp_source) /\
  List.length temp_df =
    (List.length (rows temp_source) -
     List.length (List.filter (row_excluded pandas_coercions (rows temp_source)) (rows temp_source)))%nat.
Proof.
  assert (Hl : load_with pandas_coercions temp_source = inr temp_df) by (vm_compute; reflexivity).
  split; [exact Hl|]. split; [vm_compute; reflexivity|].
  split; [vm_compute; reflexivity|].
  destruct (load_row_exclusion pandas_coercions temp_source temp_df Hl) as [H1 [_ [_ H4]]].
  split; [exact H1 | exact H4].
Defined.

Definition with_start (q : Request) (o : option string) : Request :=
  {| q_location := q_location q; q_sensor := q_sensor q;
     q_start_date := o; q_end_date := q_end_date q |}.

Definition with_end (q : Request) (o : option string) : Request :=
  {| q_location := q_location q; q_sensor := q_sensor q;
     q_start_date := q_start_date q; q_end_date := o |}.

(** C8: a [start_date] or [end_date] on which [_parse_iso] gives [None]
    (because [pd.to_datetime] raised, or returned [NaT]) is not an error.
    Whatever parser [_parse_iso] wraps, the filter block then keeps
    exactly the rows it keeps for the same request without that bound;
    and on a cache miss with a loadable table the endpoint responds
    (MISS) with the rendering of the stats of the request without that
    bound. *)
Theorem unparseable_bound_ignored (to_dt : string -> option Z)
    (src : Source) (df : list Reading)
    (cache : gmap Key Stats) (q : Request) (s : string)
    (Hbad_any : parse_iso_with to_dt (Some s) = None)
    (Hload : load_data src = inr df) (Hbad : parse_iso (Some s) = None) :
  filter_rows_with (parse_iso_with to_dt) df (with_start q (Some s))
    = filter_rows_with (parse_iso_with to_dt) df (with_start q None) /\
  filter_rows_with (parse_iso_with to_dt) df (with_end q (Some s))
    = filter_rows_with (parse_iso_with to_dt) df (with_end q None) /\
  (cache !! cache_key (with_start q (Some s)) = None ->
     fst (stats src cache (with_start q (Some s)))
       = json_response (compute_stats df (with_start q None)) MISS) /\
  (cache !! cache_key (with_end q (Some s)) = None ->
     fst (stats src cache (with_end q (Some s)))
       = json_response (compute_stats df (with_end q None)) MISS).
Proof.
  split; [|split]; [..|split].
  - unfold filter_rows_with, with_start; cbn [q_start_date q_end_date q_location q_sensor].
    now rewrite Hbad_any.
  - unfold filter_rows_with, with_end; cbn [q_start_date q_end_date q_location q_sensor].
    now rewrite Hbad_any.
  - intros Hmiss; unfold stats; rewrite Hmiss, Hload; cbn [fst].
    unfold compute_stats, filter_rows, filter_rows_with, with_start;
      cbn [q_start_date q_end_date q_location q_sensor]. now rewrite Hbad.
  - intros Hmiss; unfold stats; rewrite Hmiss, Hload; cbn [fst].
    unfold compute_stats, filter_rows, filter_rows_with, with_end;
      cbn [q_start_date q_end_date q_location q_sensor]. now rewrite Hbad.
Qed.

Lemma unparseable_bound_ignored_witness :
  parse_iso (Some "2024-13-45") = None /\
  fst (stats temp_source ∅ (with_start temp_query (Some "2024-13-45")))
    = json_response (compute_stats temp_df (with_start temp_query None)) MISS /\
  filter_rows_with parse_iso temp_df (with_end temp_query (Some "2024-13-45"))
    = filter_rows_with parse_iso temp_df (with_end temp_query None).
Proof.
  assert (Hb : parse_iso (Some "2024-13-45") = None) by reflexivity.
  assert (Hl : load_data temp_source = inr temp_df) by (vm_compute; reflexivity).
  destruct (unparseable_bound_ignored to_datetime temp_source temp_df ∅ temp_query "2024-13-45"
              Hb Hl Hb) as [_ [He [Hs _]]].
  split; [exact Hb|]. split; [apply Hs; reflexivity | exact He].
Defined.

(** Two optional parameters agree up to [s.strip().lower()]. *)
Definition same_norm (a b : option string) : Prop :=
  match a, b with
  | None, None => True
  | Some x, Some y => norm_str x = norm_str y
  | _, _ => False
  end.

Definition iso_z_query : Request :=
  {| q_location := None; q_sensor := None;
     q_start_date := Some "2024-01-01T00:00:00Z"; q_end_date := None |}.

Definition iso_offset_query : Request :=
  {| q_location := None; q_sensor := None;
     q_start_date := Some "2024-01-01T00:00:00+00:00"; q_end_date := None |}.

(** C1, counterexample: two spellings of the same instant give two
    different cache keys. *)
Lemma cache_key_iso_spellings_differ :
  parse_iso (q_start_date iso_z_query) = parse_iso (q_start_date iso_offset_query) /\
  cache_key iso_z_query <> cache_key iso_offset_query.
Proof. split; [reflexivity | vm_compute; discriminate]. Qed.

(** C1, as amended: requests whose four parameters agree after trimming
    and lower-casing (a missing one matching a missing one) get the same
    cache key; the dates enter the key as normalized text, so equal keys
    force equal normalized date texts, and spellings of one instant that
    differ as text get different keys. *)
Theorem cache_key_textual (q1 q2 : Request) :
  (same_norm (q_location q1) (q_location q2) ->
   same_norm (q_sensor q1) (q_sensor q2) ->
   same_norm (q_start_date q1) (q_start_date q2) ->
   same_norm (q_end_date q1) (q_end_date q2) ->
   cache_key q1 = cache_key q2) /\
  (cache_key q1 = cache_key q2 ->
   norm_key (q_start_date q1) = norm_key (q_start_date q2) /\
   norm_key (q_end_date q1) = norm_key (q_end_date q2)).
Proof.
  split.
  - unfold cache_key, same_norm, norm_key.
    destruct (q_location q1), (q_location q2); try tauto;
    destruct (q_sensor q1), (q_sensor q2); try tauto;
    destruct (q_start_date q1), (q_start_date q2); try tauto;
    destruct (q_end_date q1), (q_end_date q2); try tauto;
    intros; congruence.
  - unfold cache_key. intros E. injection E. auto.
Qed.

Definition with_location (q : Request) (o : option string) : Request :=
  {| q_location := o; q_sensor := q_sensor q;
     q_start_date := q_start_date q; q_end_date := q_end_date q |}.

Definition with_sensor (q : Request) (o : option string) : Request :=
  {| q_location := q_location q; q_sensor := o;
     q_start_date := q_start_date q; q_end_date := q_end_date q |}.

Lemma filter_rows_location_norm (df : list Reading) (q : Request) (x y : string) :
  x <> "" -> y <> "" -> norm_str x = norm_str y ->
  filter_rows df (with_location q (Some x)) = filter_rows df (with_location q (Some y)).
Proof.
  intros Hx Hy E. unfold filter_rows, filter_rows_with, with_location. cbn [q_location q_sensor q_start_date q_end_date].
  apply String.eqb_neq in Hx, Hy. now rewrite Hx, Hy, E.
Qed.

Lemma filter_rows_sensor_norm (df : list Reading) (q : Request) (x y : string) :
  x <> "" -> y <> "" -> norm_str x = norm_str y ->
  filter_rows df (with_sensor q (Some x)) = filter_rows df (with_sensor q (Some y)).
Proof.
  intros Hx Hy E. unfold filter_rows, filter_rows_with, with_sensor. cbn [q_location q_sensor q_start_date q_end_date].
  apply String.eqb_neq in Hx, Hy. now rewrite Hx, Hy, E.
Qed.

(** C9, counterexample: [""] and ["  "] are equal after trimming and
    lower-casing and share one cache key, but [""] puts no constraint on
    the location while ["  "] keeps only readings whose location
    normalizes to [""]: on the sample table they count 3 and 0. *)
Lemma location_empty_vs_blank_differ :
  norm_str "" = norm_str "  " /\
  cache_key (with_location temp_query (Some "")) =
    cache_key (with_location temp_query (Some "  ")) /\
  st_count (compute_stats temp_df (with_location temp_query (Some ""))) = 3%nat /\
  st_count (compute_stats temp_df (with_location temp_query (Some "  "))) = 0%nat.
Proof. vm_compute. repeat split. Qed.

(** C9, as amended: two non-empty location strings, or two non-empty
    sensor strings, equal after trimming and lower-casing give the same
    cache key, the same stats on any table, and the same response and
    cache from the endpoint in any state. *)
Theorem filter_case_insensitive (q : Request) (x y : string)
    (Hx : x <> "") (Hy : y <> "") (E : norm_str x = norm_str y) :
  (cache_key (with_location q (Some x)) = cache_key (with_location q (Some y)) /\
   (forall df, compute_stats df (with_location q (Some x)) =
               compute_stats df (with_location q (Some y))) /\
   (forall src cache, stats src cache (with_location q (Some x)) =
                      stats src cache (with_location q (Some y)))) /\
  (cache_key (with_sensor q (Some x)) = cache_key (with_sensor q (Some y)) /\
   (forall df, compute_stats df (with_sensor q (Some x)) =
               compute_stats df (with_sensor q (Some y))) /\
   (forall src cache, stats src cache (with_sensor q (Some x)) =
                      stats src cache (with_sensor q (Some y)))).
Proof.
  assert (Kl : cache_key (with_location q (Some x)) = cache_key (with_location q (Some y)))
    by (unfold cache_key; simpl; now rewrite E).
  assert (Ks : cache_key (with_sensor q (Some x)) = cache_key (with_sensor q (Some y)))
    by (unfold cache_key; simpl; now rewrite E).
  assert (Cl : forall df, compute_stats df (with_location q (Some x)) =
                          compute_stats df (with_location q (Some y)))
    by (intros df; unfold compute_stats; now rewrite (filter_rows_location_norm df q x y)).
  assert (Cs : forall df, compute_stats df (with_sensor q (Some x)) =
                          compute_stats df (with_sensor q (Some y)))
    by (intros df; unfold compute_stats; now rewrite (filter_rows_sensor_norm df q x y)).
  split; (split; [assumption|]); (split; [assumption|]);
    intros src cache; unfold stats; [rewrite Kl | rewrite Ks];
    destruct (cache !! _); try reflexivity;
    destruct (load_data src); try reflexivity; [rewrite Cl | rewrite Cs]; reflexivity.
Qed.

Lemma filter_case_insensitive_witness :
  cache_key (with_location temp_query (Some "Building A")) =
    cache_key (with_location temp_query (Some "building a  ")) /\
  compute_stats temp_df (with_location temp_query (Some "Building A")) =
    compute_stats temp_df (with_location temp_query (Some "building a  ")).
Proof.
  assert (Hx : "Building A" <> "") by discriminate.
  assert (Hy : "building a  " <> "") by discriminate.
  assert (E : norm_str "Building A" = norm_str "building a  ") by (vm_compute; reflexivity).
  destruct (filter_case_insensitive temp_query "Building A" "building a  " Hx Hy E)
    as [[K [C _]] _].
  split; [exact K | apply C].
Defined.

Definition no_match : Stats :=
  {| st_count := 0; st_avg := None; st_min := None; st_max := None |}.

(** C10: the key of an empty [location] is [Some ""], the same as the key
    of a whitespace-only one, while the filter treats the first as absent
    and the second as the constraint [""]. Served in sequence from an
    empty cache, the whitespace-only request stores count 0 and the empty
    one then hits that entry and gets the empty result, where computing
    it gives count 3. *)
Theorem blank_and_empty_location_share_key :
  cache_key (with_location temp_query (Some "")) =
    (Some "", Some "temp", Some "2024-01-01t00:00:00z", Some "2024-01-31t00:00:00+00:00") /\
  cache_key (with_location temp_query (Some "   ")) =
    cache_key (with_location temp_query (Some "")) /\
  cache_key (with_location temp_query None) <> cache_key (with_location temp_query (Some "")) /\
  st_count (compute_stats temp_df (with_location temp_query (Some ""))) = 3%nat /\
  fst (serve temp_source ∅ [with_location temp_query (Some "   ");
                            with_location temp_query (Some "")])
    = [inr (no_match, MISS); inr (no_match, HIT)].
Proof.
  split; [vm_compute; reflexivity|]. split; [vm_compute; reflexivity|].
  split; [vm_compute; discriminate|]. split; [vm_compute; reflexivity|].
  vm_compute. reflexivity.
Qed.

(* ------------------------------------------------------------------ *)
(** ** Date-only bounds *)













(* ------------------------------------------------------------------ *)
(** ** Further properties of the cache *)

Lemma serve_cons (src : Source) (c : gmap Key Stats) (q : Request) (qs : list Request) :
  serve src c (q :: qs) =
    (fst (stats src c q) :: fst (serve src (snd (stats src c q)) qs),
     snd (serve src (snd (stats src c q)) qs)).
Proof.
  simpl. destruct (stats src c q) as [r c']. simpl.
  now destruct (serve src c' qs).
Qed.


(** Every entry is the stats of some request with that key. *)
Definition cache_coherent (df : list Reading) (c : gmap Key Stats) : Prop :=
  forall k p, c !! k = Some p -> exists q, cache_key q = k /\ p = compute_stats df q.

(** A response is the rendering of the stats of some request with the
    same key. *)
Definition response_coherent (df : list Reading) (q : Request) (r : Response) : Prop :=
  exists q' tag, cache_key q' = cache_key q /\ r = json_response (compute_stats df q') tag.

Lemma stats_coherent (src : Source) (df : list Reading) (c : gmap Key Stats) (q : Request) :
  load_data src = inr df -> cache_coherent df c ->
  cache_coherent df (snd (stats src c q)) /\ response_coherent df q (fst (stats src c q)).
Proof.
  intros Hl Hc. unfold stats. destruct (c !! cache_key q) as [p|] eqn:E.
  - split; [exact Hc|]. simpl. destruct (Hc _ _ E) as [q' [K P]].
    exists q', HIT. now rewrite P.
  - rewrite Hl. simpl. split; [|exists q, MISS; auto].
    intros k p Hk. destruct (decide (cache_key q = k)) as [<-|Hne].
    + rewrite lookup_insert_eq in Hk. injection Hk as <-. eauto.
    + rewrite lookup_insert_ne in Hk by exact Hne. eauto.
Qed.

Lemma serve_coherent (src : Source) (df : list Reading) (c : gmap Key Stats) (qs : list Request) :
  load_data src = inr df -> cache_coherent df c ->
  cache_coherent df (snd (serve src c qs)) /\
  Forall2 (response_coherent df) qs (fst (serve src c qs)).
Proof.
  intros Hl. revert c; induction qs as [|q qs IH]; intros c Hc; simpl.
  - split; [exact Hc | constructor].
  - destruct (stats_coherent src df c q Hl Hc) as [Hc' Hr].
    destruct (stats src c q) as [r c'] eqn:E. simpl in *.
    destruct (IH c' Hc') as [H1 H2].
    destruct (serve src c' qs) as [rs c''] eqn:E'. simpl in *.
    split; [exact H1 | constructor; assumption].
Qed.

(** Served from the empty cache with a loadable table, every response
    and every stored entry is the freshly computed stats of a request
    with the same key: the cache never answers with a result stored
    under another key. *)
Theorem serve_from_empty_coherent (src : Source) (df : list Reading) (qs : list Request)
    (Hl : load_data src = inr df) :
  cache_coherent df (snd (serve src ∅ qs)) /\
  Forall2 (response_coherent df) qs (fst (serve src ∅ qs)).
Proof.
  apply serve_coherent; [exact Hl|].
  intros k p Hk. rewrite lookup_empty in Hk. discriminate.
Qed.

Lemma serve_from_empty_coherent_witness :
  cache_coherent temp_df (snd (serve temp_source ∅ [temp_query; temp_query_recased])) /\
  Forall2 (response_coherent temp_df) [temp_query; temp_query_recased]
          (fst (serve temp_source ∅ [temp_query; temp_query_recased])).
Proof.
  apply serve_from_empty_coherent. vm_compute. reflexivity.
Defined.

(** A response that is not the [ValueError] of a missing column. *)
Definition not_load_error (r : Response) : Prop :=
  match r with inl (ValueError _) => False | _ => True end.

Lemma json_response_not_load_error (p : Stats) (tag : XCache) :
  not_load_error (json_response p tag).
Proof. unfold json_response. now destruct (json_ok p). Qed.

Lemma serve_dom (src : Source) (df : list Reading) (c : gmap Key Stats) (qs : list Request) :
  load_data src = inr df ->
  dom (snd (serve src c qs)) = dom c ∪ list_to_set (map cache_key qs) /\
  Forall not_load_error (fst (serve src c qs)).
Proof.
  intros Hl. revert c; induction qs as [|q qs IH]; intros c; rewrite ?serve_cons; simpl.
  - split; [set_solver | constructor].
  - destruct (IH (snd (stats src c q))) as [D F]. split.
    + rewrite D. unfold stats. destruct (c !! cache_key q) as [p|] eqn:E.
      * assert (cache_key q ∈ dom c) by (apply elem_of_dom; eauto). set_solver.
      * rewrite Hl. simpl. rewrite dom_insert_L. set_solver.
    + constructor; [|exact F]. unfold stats.
      destruct (c !! cache_key q); [apply json_response_not_load_error|].
      rewrite Hl. apply json_response_not_load_error.
Qed.

(** From the empty cache with a loadable table, no request fails on the
    table (each is answered, or fails only in rendering), and afterwards the cache holds exactly the keys of the
    requests served. *)
Theorem serve_from_empty_dom (src : Source) (df : list Reading) (qs : list Request)
    (Hl : load_data src = inr df) :
  dom (snd (serve src ∅ qs)) = list_to_set (map cache_key qs) /\
  Forall not_load_error (fst (serve src ∅ qs)).
Proof.
  destruct (serve_dom src df ∅ qs Hl) as [D F]. split; [|exact F].
  rewrite D, dom_empty_L. set_solver.
Qed.

Lemma serve_from_empty_dom_witness :
  dom (snd (serve temp_source ∅ [temp_query; temp_query_recased])) =
    list_to_set (map cache_key [temp_query; temp_query_recased]) /\
  Forall not_load_error
         (fst (serve temp_source ∅ [temp_query; temp_query_recased])).
Proof.
  apply (serve_from_empty_dom temp_source temp_df). vm_compute. reflexivity.
Defined.

Lemma serve_all_cached (src : Source) (c : gmap Key Stats) (qs : list Request) :
  Forall (fun q => cache_key q ∈ dom c) qs ->
  snd (serve src c qs) = c /\
  Forall2 (fun q r => exists p, c !! cache_key q = Some p /\ r = json_response p HIT)
          qs (fst (serve src c qs)).
Proof.
  induction qs as [|q qs IH]; intros Hall; [split; [reflexivity|constructor]|].
  apply Forall_cons in Hall as [Hq Hall].
  apply elem_of_dom in Hq as [p Hp].
  assert (Hs : stats src c q = (json_response p HIT, c)) by (unfold stats; now rewrite Hp).
  rewrite serve_cons, Hs. simpl.
  destruct (IH Hall) as [H1 H2].
  split; [exact H1|]. constructor; [eauto | exact H2].
Qed.

(** Serving the same requests a second time, from the cache the first
    round left, answers every one of them from the stored entry, with
    the HIT header and leaves the cache unchanged. *)
Theorem serve_again_all_hits (src : Source) (df : list Reading) (c : gmap Key Stats)
    (qs : list Request) (Hl : load_data src = inr df) :
  let c1 := snd (serve src c qs) in
  snd (serve src c1 qs) = c1 /\
  Forall2 (fun q r => exists p, c1 !! cache_key q = Some p /\ r = json_response p HIT)
          qs (fst (serve src c1 qs)).
Proof.
  intros c1. apply serve_all_cached.
  destruct (serve_dom src df c qs Hl) as [D _]. subst c1. rewrite D.
  apply Forall_forall. intros q Hq.
  apply elem_of_union_r, elem_of_list_to_set, list_elem_of_In, in_map, list_elem_of_In, Hq.
Qed.

Lemma serve_again_all_hits_witness :
  let c1 := snd (serve temp_source ∅ [temp_query; with_location temp_query (Some "x")]) in
  snd (serve temp_source c1 [temp_query; with_location temp_query (Some "x")]) = c1 /\
  Forall2 (fun q r => exists p, c1 !! cache_key q = Some p /\ r = json_response p HIT)
          [temp_query; with_location temp_query (Some "x")]
          (fst (serve temp_source c1 [temp_query; with_location temp_query (Some "x")])).
Proof.
  apply (serve_again_all_hits temp_source temp_df). vm_compute. reflexivity.
Defined.

(* ------------------------------------------------------------------ *)
(** ** Further properties of the aggregation *)

(** The average is computed by numpy's pairwise summation in binary64
    and a division, so it can lie outside the range of the matching
    values: three readings of [0.1] give [min = max = 0.1] and an
    average of [0.10000000000000002]. *)
Theorem stats_avg_above_max :
  let df := [ {| timestamp := 0; location := "a"; sensor := "s"; value := 0.1%float;
                 location_norm := "a"; sensor_norm := "s" |};
              {| timestamp := 1; location := "a"; sensor := "s"; value := 0.1%float;
                 location_norm := "a"; sensor_norm := "s" |};
              {| timestamp := 2; location := "a"; sensor := "s"; value := 0.1%float;
                 location_norm := "a"; sensor_norm := "s" |} ] in
  let q := {| q_location := None; q_sensor := None; q_start_date := None; q_end_date := None |} in
  compute_stats df q =
    {| st_count := 3; st_avg := Some 0.10000000000000002%float;
       st_min := Some 0.1%float; st_max := Some 0.1%float |} /\
  PrimFloat.ltb 0.1%float 0.10000000000000002%float = true.
Proof. vm_compute. split; reflexivity. Qed.

Lemma count_filter_rows (df : list Reading) (q : Request) :
  st_count (compute_stats df q) = List.length (filter_rows df q).
Proof.
  unfold compute_stats. destruct (filter_rows df q) as [|r rs]; [reflexivity|].
  simpl. now rewrite length_map.
Qed.

Lemma filter_length_mono {A} (p p' : A -> bool) (l : list A) :
  (forall x, p x = true -> p' x = true) ->
  (List.length (List.filter p l) <= List.length (List.filter p' l))%nat.
Proof.
  intros H. induction l as [|x l IH]; simpl; [lia|].
  destruct (p x) eqn:E; [rewrite (H x E); simpl; lia|].
  destruct (p' x); simpl; lia.
Qed.

Ltac drop_criterion :=
  intros r;
  unfold matches, with_location, with_sensor, with_start, with_end;
  cbn [q_location q_sensor q_start_date q_end_date crit_string truthy opt_holds parse_iso];
  rewrite ?andb_true_iff; tauto.

(** Dropping any one criterion never lowers the count, and the count
    never exceeds the number of rows of the table. *)
Theorem stats_count_monotone (df : list Reading) (q : Request) :
  (st_count (compute_stats df q) <= st_count (compute_stats df (with_location q None)))%nat /\
  (st_count (compute_stats df q) <= st_count (compute_stats df (with_sensor q None)))%nat /\
  (st_count (compute_stats df q) <= st_count (compute_stats df (with_start q None)))%nat /\
  (st_count (compute_stats df q) <= st_count (compute_stats df (with_end q None)))%nat /\
  (st_count (compute_stats df q) <= List.length df)%nat.
Proof.
  rewrite !count_filter_rows, !filter_rows_matches.
  repeat split; try (apply filter_length_mono; drop_criterion).
  rewrite (filter_all_true df) at 2.
  apply filter_length_mono. intros; reflexivity.
Qed.

(** A window whose parsed start lies after its parsed end matches no
    reading: the result is count 0 with avg, min and max absent. *)
Theorem stats_inverted_window (df : list Reading) (q : Request) (st en : Z)
    (Hs : parse_iso (q_start_date q) = Some st)
    (He : parse_iso (q_end_date q) = Some en)
    (Hlt : en < st) :
  compute_stats df q = no_match.
Proof.
  unfold compute_stats. rewrite filter_rows_matches.
  replace (List.filter (matches q) df) with (@nil Reading); [reflexivity|].
  induction df as [|r df IH]; [reflexivity|]. simpl.
  replace (matches q r) with false; [exact IH|].
  symmetry. unfold matches. rewrite Hs, He. simpl.
  destruct (st <=? timestamp r) eqn:A, (timestamp r <=? en) eqn:B;
    rewrite ?andb_false_r; try reflexivity.
  apply Z.leb_le in A, B. lia.
Qed.

Lemma stats_inverted_window_witness :
  compute_stats temp_df (with_end (with_start temp_query (Some "2024-02-01"))
                                  (Some "2024-01-01")) = no_match.
Proof.
  apply (stats_inverted_window _ _ 1706745600 1704067200);
    [reflexivity | reflexivity | lia].
Defined.

Lemma existsb_eqb_In (c : string) (h : list string) :
  existsb (String.eqb c) h = true <-> In c h.
Proof.
  rewrite existsb_exists. split.
  - intros [x [Hx E]]. apply String.eqb_eq in E. now subst.
  - intros H. exists c. split; [exact H | apply String.eqb_refl].
Qed.

(** [load_data] fails exactly when one of the four required columns is
    absent from the header; beyond that the header plays no role: two
    sources with the same rows whose headers agree on the required
    columns load to the same result. *)
Theorem load_data_schema (src src' : Source) :
  ((exists e, load_data src = inl e) <->
   exists c, In c required /\ ~ In c (header src)) /\
  (rows src = rows src' ->
   (forall c, In c required -> In c (header src) <-> In c (header src')) ->
   load_data src = load_data src').
Proof.
  split.
  - unfold load_data, load_with. split.
    + intros [e He]. destruct (missing_columns (header src)) as [|c cs] eqn:M;
        [discriminate|].
      assert (Hc : In c (missing_columns (header src))) by (rewrite M; now left).
      unfold missing_columns in Hc. apply List.filter_In in Hc as [Hc Hn].
      exists c. split; [exact Hc|]. rewrite <- existsb_eqb_In.
      destruct (existsb _ _); [discriminate | congruence].
    + intros [c [Hc Hn]].
      assert (Hm : In c (missing_columns (header src))).
      { unfold missing_columns. apply List.filter_In. split; [exact Hc|].
        destruct (existsb (String.eqb c) (header src)) eqn:E; [|reflexivity].
        apply existsb_eqb_In in E. contradiction. }
      destruct (missing_columns (header src)); [destruct Hm|]. eauto.
  - intros Hr Hh. unfold load_data, load_with. rewrite Hr.
    replace (missing_columns (header src')) with (missing_columns (header src));
      [reflexivity|].
    unfold missing_columns. apply List.filter_ext_in. intros c Hc.
    f_equal. apply Bool.eq_true_iff_eq. rewrite !existsb_eqb_In. now apply Hh.
Qed.

(* ------------------------------------------------------------------ *)
(** ** Normalization is idempotent *)

Lemma is_py_space_lower_char (c : ascii) : is_py_space (lower_char c) = is_py_space c.
Proof. destruct c as [[] [] [] [] [] [] [] []]; reflexivity. Qed.

Lemma lower_char_idem (c : ascii) : lower_char (lower_char c) = lower_char c.
Proof. destruct c as [[] [] [] [] [] [] [] []]; reflexivity. Qed.

Lemma lower_as_map (s : string) :
  lower s = string_of_list_ascii (map lower_char (list_ascii_of_string s)).
Proof. induction s as [|c s IH]; simpl; congruence. Qed.

Lemma drop_space_map_lower (l : list ascii) :
  drop_space (map lower_char l) = map lower_char (drop_space l).
Proof.
  induction l as [|c l IH]; simpl; [reflexivity|].
  rewrite is_py_space_lower_char. destruct (is_py_space c); [exact IH | reflexivity].
Qed.

Lemma strip_lower_comm (s : string) : strip (lower s) = lower (strip s).
Proof.
  unfold strip. rewrite !lower_as_map, !list_ascii_of_string_of_list_ascii.
  rewrite drop_space_map_lower, <- map_rev, drop_space_map_lower, <- map_rev.
  reflexivity.
Qed.

Lemma lower_idem (s : string) : lower (lower s) = lower s.
Proof. induction s as [|c s IH]; simpl; [reflexivity|]. now rewrite lower_char_idem, IH. Qed.

Lemma drop_space_idem (l : list ascii) : drop_space (drop_space l) = drop_space l.
Proof.
  induction l as [|c l IH]; simpl; [reflexivity|].
  destruct (is_py_space c) eqn:E; [exact IH|]. simpl. now rewrite E.
Qed.

Lemma drop_space_suffix (l : list ascii) : exists p, l = p ++ drop_space l.
Proof.
  induction l as [|c l [p IH]]; simpl; [now exists []|].
  destruct (is_py_space c); [exists (c :: p); simpl; congruence | now exists []].
Qed.

Lemma drop_space_length (l : list ascii) : (List.length (drop_space l) <= List.length l)%nat.
Proof.
  induction l as [|c l IH]; simpl; [lia|]. destruct (is_py_space c); simpl; lia.
Qed.

Lemma drop_space_rev_trimmed (a : list ascii) :
  drop_space a = a ->
  drop_space (rev (drop_space (rev a))) = rev (drop_space (rev a)).
Proof.
  intros Ha. destruct (drop_space_suffix (rev a)) as [p Hp].
  set (b := drop_space (rev a)) in *.
  assert (Ea : a = rev b ++ rev p).
  { rewrite <- (rev_involutive a), Hp, rev_app_distr. reflexivity. }
  destruct (rev b) as [|x t] eqn:Eb; [reflexivity|].
  simpl. destruct (is_py_space x) eqn:X; [|reflexivity].
  exfalso. rewrite Ea in Ha. simpl in Ha. rewrite X in Ha.
  pose proof (drop_space_length (t ++ rev p)) as L.
  rewrite Ha in L. simpl in L. lia.
Qed.

Lemma strip_idem (s : string) : strip (strip s) = strip s.
Proof.
  unfold strip. rewrite list_ascii_of_string_of_list_ascii. f_equal.
  set (a := drop_space (list_ascii_of_string s)).
  rewrite (drop_space_rev_trimmed a) by apply drop_space_idem.
  rewrite rev_involutive. f_equal. apply drop_space_idem.
Qed.

(** Normalizing twice is normalizing once, so a request whose parameters
    are already the components of a cache key has that same key. *)
Theorem norm_idempotent (s : string) (q : Request) :
  norm_str (norm_str s) = norm_str s /\
  cache_key {| q_location := norm_key (q_location q); q_sensor := norm_key (q_sensor q);
               q_start_date := norm_key (q_start_date q);
               q_end_date := norm_key (q_end_date q) |} = cache_key q.
Proof.
  assert (N : forall s, norm_str (norm_str s) = norm_str s).
  { intros x. unfold norm_str. now rewrite strip_lower_comm, strip_idem, lower_idem. }
  split; [apply N|].
  unfold cache_key, norm_key. simpl.
  destruct (q_location q), (q_sensor q), (q_start_date q), (q_end_date q);
    now rewrite ?N.
Qed.
